(** * livekit-voice-agent front-end: configuration record and welcome view

    A shallow embedding of
      - [src/frontend/app-config.ts]  (interface [AppConfig], constant
        [APP_CONFIG_DEFAULTS]), and
      - the welcome-screen module (components [WelcomeImage], [WelcomeView]),
    followed by the properties stated about them.

    JavaScript objects are finite maps from property names to values,
    [process.env] is a finite map from variable names to strings, and a JSX
    expression is the element tree that it evaluates to. *)

From stdpp Require Import gmap strings list fin_maps.

Local Open Scope string_scope.
Local Open Scope list_scope.

(** ** JavaScript values and completions *)

Module JS.

(** The primitive values that occur in the configuration literal. *)
Inductive JSValue : Type :=
| JSUndefined
| JSNull
| JSBool (b : bool)
| JSString (s : string).

#[global] Instance JSValue_eq_dec : EqDecision JSValue.
Proof. solve_decision. Defined.


Inductive JSError : Type :=
| TypeError (msg : string)
| ReferenceError (msg : string).

(** The outcome of evaluating an expression: a value or a thrown error. *)
Inductive Completion (A : Type) : Type :=
| Normal (a : A)
| Throw (e : JSError).
Arguments Normal {A} a.
Arguments Throw {A} e.

(** Sequencing: a thrown error skips the rest of the evaluation. *)
#[global] Instance Completion_ret : MRet Completion := fun A a => Normal a.
#[global] Instance Completion_bind : MBind Completion := fun A B k c =>
  match c with
  | Normal a => k a
  | Throw e => Throw e
  end.


(** [a ?? b]: the right operand is taken exactly when the left one is
    [undefined] or [null]. *)
Definition nullish (a b : JSValue) : JSValue :=
  match a with
  | JSUndefined | JSNull => b
  | _ => a
  end.

(** [o.k] on an object: the property's value, [undefined] when absent. *)
Definition get (o : gmap string JSValue) (k : string) : JSValue :=
  default JSUndefined (o !! k).


(** An object literal [{ k1: v1, ..., kn: vn }]: properties are defined
    left to right, a later one replacing an earlier one of the same name. *)
Definition object_literal (props : list (string * JSValue)) : gmap string JSValue :=
  foldl (fun o kv => <[kv.1 := kv.2]> o) ∅ props.

(** [process.env]: an object all of whose own properties are strings. *)
Definition process_env_object (env : gmap string string) : gmap string JSValue :=
  JSString <$> env.

End JS.

Import JS.

(** ** src/frontend/app-config.ts *)

(** The types an [AppConfig] field is declared with. *)
Inductive FieldType : Type :=
| TString
| TBoolean.

(** One line of the interface: name, declared type, and whether the field is
    optional ([name?: T], which admits [undefined]). *)
Record FieldDecl : Type := mkField {
  fname : string;
  ftype : FieldType;
  foptional : bool
}.

(** [export interface AppConfig { ... }] *)
Definition AppConfig : list FieldDecl :=
  [ mkField "pageTitle" TString false;
    mkField "pageDescription" TString false;
    mkField "companyName" TString false;
    mkField "supportsChatInput" TBoolean false;
    mkField "supportsVideoInput" TBoolean false;
    mkField "supportsScreenShare" TBoolean false;
    mkField "isPreConnectBufferEnabled" TBoolean false;
    mkField "logo" TString false;
    mkField "startButtonText" TString false;
    mkField "accent" TString true;
    mkField "logoDark" TString true;
    mkField "accentDark" TString true;
    mkField "agentName" TString true;
    mkField "sandboxId" TString true ].





(** The value of [process.env.AGENT_NAME]. *)
Definition env_AGENT_NAME (env : gmap string string) : JSValue :=
  get (process_env_object env) "AGENT_NAME".

(** The object literal of the module, with the value read from the
    environment as [AGENT_NAME]. *)
Definition APP_CONFIG_literal (AGENT_NAME : JSValue) : gmap string JSValue :=
  object_literal
    [ ("companyName", JSString "Trading Assistant");
      ("pageTitle", JSString "AI Trading Assistant");
      ("pageDescription", JSString "Your personal voice-powered portfolio analyst");
      ("supportsChatInput", JSBool true);
      ("supportsVideoInput", JSBool false);
      ("supportsScreenShare", JSBool false);
      ("isPreConnectBufferEnabled", JSBool true);
      ("logo", JSString "/lk-logo.svg");
      ("accent", JSString "#16a34a");
      ("logoDark", JSString "/lk-logo-dark.svg");
      ("accentDark", JSString "#4ade80");
      ("startButtonText", JSString "Analyse my portfolio");
      ("agentName", nullish AGENT_NAME JSUndefined);
      ("sandboxId", JSUndefined) ].

(** [export const APP_CONFIG_DEFAULTS: AppConfig = { ... }], as a function of
    the process environment that the module is loaded in. *)
Definition APP_CONFIG_DEFAULTS (env : gmap string string) : gmap string JSValue :=
  APP_CONFIG_literal (env_AGENT_NAME env).






(** [o.k = v] on an ordinary object, which is what an object literal creates:
    the property is written. The module does not freeze the record, and the
    interface declares no field [readonly]. *)
Definition assign (o : gmap string JSValue) (kv : string * JSValue)
  : gmap string JSValue :=
  <[kv.1 := kv.2]> o.


(** ** The welcome-screen module: element trees *)

(** A function passed as a prop ([() => void]); it is opaque to the view, so
    only its identity is kept. *)
Inductive Callback : Type :=
| Fn (id : nat).

(** A ref ([React.Ref<HTMLDivElement>]): a ref object, by identity, or a
    callback ref, a function that React runs when it attaches the element. *)
Inductive Ref : Type :=
| RefObject (id : nat)
| RefCallback (f : Callback).

#[global] Instance Callback_eq_dec : EqDecision Callback.
Proof. solve_decision. Defined.
#[global] Instance Ref_eq_dec : EqDecision Ref.
Proof. solve_decision. Defined.

(** The value of a JSX attribute. *)
Inductive PropValue : Type :=
| PStr (s : string)
| PCallback (f : Callback)
| PRef (r : Ref)
| PUndefined.

#[global] Instance PropValue_eq_dec : EqDecision PropValue.
Proof. solve_decision. Defined.

(** The function components that the module's JSX refers to. *)
Inductive ComponentRef : Type :=
| CWelcomeImage
| CButton.

#[global] Instance ComponentRef_eq_dec : EqDecision ComponentRef.
Proof. solve_decision. Defined.

(** The type of an element: a host tag ([<div>]) or a component
    ([<Button>]). *)
Inductive ElementType : Type :=
| Host (tag : string)
| Comp (c : ComponentRef).

#[global] Instance ElementType_eq_dec : EqDecision ElementType.
Proof. solve_decision. Defined.

#[local] Set Warnings "-register-all".

(** What a JSX expression evaluates to. The children are kept apart from the
    other props. *)
Inductive Element : Type :=
| Text (s : string)
| Elem (ty : ElementType) (props : list (string * PropValue))
       (children : list Element).

Notation "k =: v" := (k, PStr v) (at level 60, no associativity).

(** [function WelcomeImage() { return <svg ...> ... </svg>; }] *)
Definition WelcomeImage : Element :=
  Elem (Host "svg")
    [ "width" =: "64"; "height" =: "64"; "viewBox" =: "0 0 64 64";
      "fill" =: "none"; "xmlns" =: "http://www.w3.org/2000/svg";
      "className" =: "text-fg0 mb-4 size-16" ]
    [ (* Candle 1 - bearish (down) *)
      Elem (Host "line")
        [ "x1" =: "12"; "y1" =: "8"; "x2" =: "12"; "y2" =: "16";
          "stroke" =: "currentColor"; "strokeWidth" =: "2";
          "strokeLinecap" =: "round" ] [];
      Elem (Host "rect")
        [ "x" =: "8"; "y" =: "16"; "width" =: "8"; "height" =: "14";
          "rx" =: "1"; "fill" =: "currentColor"; "opacity" =: "0.4" ] [];
      Elem (Host "line")
        [ "x1" =: "12"; "y1" =: "30"; "x2" =: "12"; "y2" =: "38";
          "stroke" =: "currentColor"; "strokeWidth" =: "2";
          "strokeLinecap" =: "round" ] [];
      (* Candle 2 - bullish (up) *)
      Elem (Host "line")
        [ "x1" =: "28"; "y1" =: "12"; "x2" =: "28"; "y2" =: "20";
          "stroke" =: "currentColor"; "strokeWidth" =: "2";
          "strokeLinecap" =: "round" ] [];
      Elem (Host "rect")
        [ "x" =: "24"; "y" =: "20"; "width" =: "8"; "height" =: "18";
          "rx" =: "1"; "fill" =: "currentColor" ] [];
      Elem (Host "line")
        [ "x1" =: "28"; "y1" =: "38"; "x2" =: "28"; "y2" =: "46";
          "stroke" =: "currentColor"; "strokeWidth" =: "2";
          "strokeLinecap" =: "round" ] [];
      (* Candle 3 - bearish *)
      Elem (Host "line")
        [ "x1" =: "44"; "y1" =: "6"; "x2" =: "44"; "y2" =: "14";
          "stroke" =: "currentColor"; "strokeWidth" =: "2";
          "strokeLinecap" =: "round" ] [];
      Elem (Host "rect")
        [ "x" =: "40"; "y" =: "14"; "width" =: "8"; "height" =: "12";
          "rx" =: "1"; "fill" =: "currentColor"; "opacity" =: "0.4" ] [];
      Elem (Host "line")
        [ "x1" =: "44"; "y1" =: "26"; "x2" =: "44"; "y2" =: "34";
          "stroke" =: "currentColor"; "strokeWidth" =: "2";
          "strokeLinecap" =: "round" ] [];
      (* Candle 4 - bullish *)
      Elem (Host "line")
        [ "x1" =: "56"; "y1" =: "18"; "x2" =: "56"; "y2" =: "24";
          "stroke" =: "currentColor"; "strokeWidth" =: "2";
          "strokeLinecap" =: "round" ] [];
      Elem (Host "rect")
        [ "x" =: "52"; "y" =: "24"; "width" =: "8"; "height" =: "20";
          "rx" =: "1"; "fill" =: "currentColor" ] [];
      Elem (Host "line")
        [ "x1" =: "56"; "y1" =: "44"; "x2" =: "56"; "y2" =: "52";
          "stroke" =: "currentColor"; "strokeWidth" =: "2";
          "strokeLinecap" =: "round" ] [];
      (* Baseline *)
      Elem (Host "line")
        [ "x1" =: "4"; "y1" =: "58"; "x2" =: "60"; "y2" =: "58";
          "stroke" =: "currentColor"; "strokeWidth" =: "2";
          "strokeLinecap" =: "round"; "opacity" =: "0.3" ] [] ].

(** The props object that [WelcomeView] is called with:
    [React.ComponentProps<'div'> & WelcomeViewProps]. The parameter pattern
    of the component binds [startButtonText], [onStartCall] and [ref]; the
    remaining [div] props are collected here as [divProps]. *)
Record WelcomeViewProps : Type := mkProps {
  startButtonText : string;
  onStartCall : Callback;
  ref : option Ref;
  divProps : list (string * PropValue)
}.

Definition ref_value (r : option Ref) : PropValue :=
  match r with
  | Some x => PRef x
  | None => PUndefined
  end.

Definition heading_text : string := "AI Trading Assistant".

Definition description_text : string :=
  "Ask about your portfolio, analyse your trades, check live prices, or create a new pie — all by voice.".

Definition disclaimer_text : string :=
  "Powered by Trading 212 · For informational use only · Not financial advice.".

(** [export const WelcomeView = ({ startButtonText, onStartCall, ref }) => ...] *)
Definition WelcomeView (p : WelcomeViewProps) : Element :=
  Elem (Host "div") [ ("ref", ref_value (ref p)) ]
    [ Elem (Host "section")
        [ "className" =: "bg-background flex flex-col items-center justify-center text-center" ]
        [ Elem (Comp CWelcomeImage) [] [];
          Elem (Host "h1")
            [ "className" =: "text-foreground text-xl font-semibold tracking-tight" ]
            [ Text heading_text ];
          Elem (Host "p")
            [ "className" =: "text-muted-foreground max-w-xs pt-1 text-sm leading-6" ]
            [ Text description_text ];
          Elem (Comp CButton)
            [ "size" =: "lg";
              ("onClick", PCallback (onStartCall p));
              "className" =: "mt-6 w-64 rounded-full font-mono text-xs font-bold tracking-wider uppercase" ]
            [ Text (startButtonText p) ] ];
      Elem (Host "div")
        [ "className" =: "fixed bottom-5 left-0 flex w-full items-center justify-center" ]
        [ Elem (Host "p")
            [ "className" =: "text-muted-foreground max-w-prose pt-1 text-xs leading-5 font-normal text-pretty md:text-sm" ]
            [ Text disclaimer_text ] ] ].

(** ** Rendering: expansion of the function components *)

(** The props that style a [Button] and are resolved into CSS classes rather
    than passed on. *)
Definition is_styling_prop (k : string) : bool :=
  String.eqb k "size" || String.eqb k "variant" || String.eqb k "className".

(** Modelled from the spec: the [Button] component of
    [@/components/ui/button], which the module imports and whose source is
    not among the files embedded here. The spec treats it as the button that shows the
    label and whose click invokes the callback: it renders a host [button]
    that carries the non-styling props it was given (among them [onClick])
    and shows its children. *)
Definition Button (props : list (string * PropValue)) (children : list Element)
  : Element :=
  Elem (Host "button")
    (List.filter (fun kv => negb (is_styling_prop kv.1)) props)
    children.

(** Expansion of an element tree into host elements: a component element is
    replaced by what the component returns. *)
Fixpoint render (e : Element) : Element :=
  match e with
  | Text s => Text s
  | Elem (Host tag) props children => Elem (Host tag) props (List.map render children)
  | Elem (Comp CWelcomeImage) _ _ => WelcomeImage
  | Elem (Comp CButton) props children => Button props (List.map render children)
  end.

(** ** Queries on element trees *)

(** The element and all its descendants, in document order. *)
Fixpoint subtrees (e : Element) : list Element :=
  e :: match e with
       | Text _ => []
       | Elem _ _ children => List.flat_map subtrees children
       end.

Definition type_of (e : Element) : option ElementType :=
  match e with
  | Text _ => None
  | Elem ty _ _ => Some ty
  end.

Definition props_of (e : Element) : list (string * PropValue) :=
  match e with
  | Text _ => []
  | Elem _ props _ => props
  end.

Definition children_of (e : Element) : list Element :=
  match e with
  | Text _ => []
  | Elem _ _ children => children
  end.

(** The elements of a given type in a tree. *)
Definition elements_of (ty : ElementType) (e : Element) : list Element :=
  List.filter (fun x => bool_decide (type_of x = Some ty)) (subtrees e).

(** The types of the elements of a tree, in document order. *)
Definition outline (e : Element) : list ElementType :=
  omap type_of (subtrees e).

(** The text shown by a tree: the concatenation of its text nodes. *)
Fixpoint textContent (e : Element) : string :=
  match e with
  | Text s => s
  | Elem _ _ children => List.fold_right (fun c acc => textContent c +:+ acc) "" children
  end.

(** The functions attached to one element, with the prop they are attached
    under. *)
Definition own_handlers (e : Element) : list (string * Callback) :=
  omap (fun kv => match kv.2 with
                  | PCallback f => Some (kv.1, f)
                  | _ => None
                  end) (props_of e).

(** Every function attached anywhere in a tree, with the type of the element
    that carries it. *)
Definition event_handlers (e : Element) : list (ElementType * string * Callback) :=
  List.flat_map
    (fun x => match type_of x with
              | Some ty => List.map (fun h => (ty, h.1, h.2)) (own_handlers x)
              | None => []
              end)
    (subtrees e).

(** No component element is left in the tree. *)
Definition host_only (e : Element) : bool :=
  forallb (fun ty => match ty with Host _ => true | Comp _ => false end) (outline e).

(** The tree with the identity-carrying props ([ref] and [onClick]) removed
    from every element. *)
Fixpoint strip_identity (e : Element) : Element :=
  match e with
  | Text s => Text s
  | Elem ty props children =>
      Elem ty
        (List.filter (fun kv => negb (String.eqb kv.1 "ref" || String.eqb kv.1 "onClick")) props)
        (List.map strip_identity children)
  end.

(** ** Click events *)

(** The [onClick] functions of one element. *)
Definition onClick_of (e : Element) : list Callback :=
  omap (fun h => if String.eqb h.1 "onClick" then Some h.2 else None) (own_handlers e).

(** A click on the node reached from [e] by the child indices [path]: the
    handlers that run, from the target outwards to the root (bubbling).
    [None] when the path leads to no node. *)
Fixpoint dispatch_click (e : Element) (path : list nat) : option (list Callback) :=
  match path with
  | [] => Some (onClick_of e)
  | i :: rest =>
      match children_of e !! i with
      | Some c =>
          match dispatch_click c rest with
          | Some hs => Some (hs ++ onClick_of e)
          | None => None
          end
      | None => None
      end
  end.

(** ** The running page *)

(** The state of a page: the configuration record built when the module was
    loaded, the tree currently on screen, and the log of the callbacks that
    click events have run so far, oldest first. *)
Record Runtime : Type := mkRuntime {
  config : gmap string JSValue;
  mounted : option Element;
  calls : list Callback
}.

(** What can happen to a page in these two modules: the welcome view is rendered
    with some props, or the user clicks a node of the tree on screen. *)
Inductive Op : Type :=
| RenderWelcome (p : WelcomeViewProps)
| ClickAt (path : list nat).

Definition boot (env : gmap string string) : Runtime :=
  {| config := APP_CONFIG_DEFAULTS env; mounted := None; calls := [] |}.

(** A step of the page as far as the view is concerned: the callbacks that
    a click runs are logged; what they do is the caller's code and is
    left out here ([step_effects] below carries it out). *)
Definition step (rt : Runtime) (op : Op) : Runtime :=
  match op with
  | RenderWelcome p =>
      {| config := config rt;
         mounted := Some (render (WelcomeView p));
         calls := calls rt |}
  | ClickAt path =>
      match mounted rt with
      | Some dom =>
          match dispatch_click dom path with
          | Some hs =>
              {| config := config rt; mounted := mounted rt; calls := calls rt ++ hs |}
          | None => rt
          end
      | None => rt
      end
  end.

Definition run (rt : Runtime) (ops : list Op) : Runtime :=
  foldl step rt ops.



(** What the callbacks do to the configuration record when they are run: for
    each one, the assignments it makes, in order. The callbacks are the
    caller's code, and the record is exported, so this is a parameter of the
    page. *)
Definition run_callbacks (writes : Callback -> list (string * JSValue))
    (hs : list Callback) (o : gmap string JSValue) : gmap string JSValue :=
  foldl (fun o f => foldl assign o (writes f)) o hs.

(** A step of the page with the callbacks' assignments carried out. *)
Definition step_effects (writes : Callback -> list (string * JSValue))
    (rt : Runtime) (op : Op) : Runtime :=
  match op with
  | RenderWelcome p =>
      {| config := config rt;
         mounted := Some (render (WelcomeView p));
         calls := calls rt |}
  | ClickAt path =>
      match mounted rt with
      | Some dom =>
          match dispatch_click dom path with
          | Some hs =>
              {| config := run_callbacks writes hs (config rt);
                 mounted := mounted rt;
                 calls := calls rt ++ hs |}
          | None => rt
          end
      | None => rt
      end
  end.


(** Where the call-to-action button sits in the rendered welcome view: the
    fourth child of the [section], which is the first child of the root. *)
Definition button_path : list nat := [0; 3].

(** The child-index paths that lead to a node of a tree, the empty path (the
    tree itself) first. *)
Fixpoint node_paths (e : Element) : list (list nat) :=
  [] :: match e with
        | Text _ => []
        | Elem _ _ children =>
            (fix below (i : nat) (cs : list Element) : list (list nat) :=
               match cs with
               | [] => []
               | c :: cs' => List.map (cons i) (node_paths c) ++ below (S i) cs'
               end) 0 children
        end.

(** The paths of [children], numbered from [i] on. *)
Fixpoint child_paths (i : nat) (children : list Element) : list (list nat) :=
  match children with
  | [] => []
  | c :: cs' => List.map (cons i) (node_paths c) ++ child_paths (S i) cs'
  end.

(** The click targets inside the call-to-action button of the rendered
    welcome view: the button itself and the label text in it. *)
Definition hits_button (path : list nat) : bool :=
  match path with
  | [0; 3] | [0; 3; 0] => true
  | _ => false
  end.

(** What holds of a page after the operations [seen]: every callback in the
    log is the [onStartCall] of some props the view was rendered with, and the
    tree on screen, if any, is the rendering of such props. *)
Definition page_invariant (seen : list Op) (rt : Runtime) : Prop :=
  (forall f, f ∈ calls rt ->
     exists p, RenderWelcome p ∈ seen /\ f = onStartCall p)
  /\ (forall dom, mounted rt = Some dom ->
        exists p, RenderWelcome p ∈ seen /\ dom = render (WelcomeView p)).

(** ** Sample inputs *)

Definition sample_env : gmap string string :=
  {[ "NODE_ENV" := "production" ]}.

Definition empty_name_env : gmap string string :=
  <[ "AGENT_NAME" := "" ]> sample_env.

Definition named_env : gmap string string :=
  <[ "AGENT_NAME" := "portfolio-agent" ]> sample_env.

Definition sample_props : WelcomeViewProps :=
  mkProps "Start call" (Fn 1) (Some (RefObject 7))
    [ ("onClick", PCallback (Fn 2)); "className" =: "p-4" ].

Definition other_props : WelcomeViewProps :=
  mkProps "Start call" (Fn 5) None [ "id" =: "welcome" ].

(** Props with a callback ref. *)
Definition callback_ref_props : WelcomeViewProps :=
  mkProps "Start call" (Fn 1) (Some (RefCallback (Fn 9)))
    [ ("onClick", PCallback (Fn 2)) ].



(** A page booted with the defaults, and the same page holding a record with
    another title and description. *)
Definition booted : Runtime := boot sample_env.

Definition retitled : Runtime :=
  {| config := <[ "pageTitle" := JSString "Another title" ]>
                 (<[ "pageDescription" := JSString "Another description" ]>
                    (config booted));
     mounted := mounted booted;
     calls := calls booted |}.

(** * Properties *)

(** ** The configuration record *)

Section Config.

Implicit Types env : gmap string string.

Lemma env_AGENT_NAME_unset env :
  env !! "AGENT_NAME" = None -> env_AGENT_NAME env = JSUndefined.
Proof.
  intros H. unfold env_AGENT_NAME, get, process_env_object.
  by rewrite lookup_fmap, H.
Qed.

Lemma env_AGENT_NAME_set env s :
  env !! "AGENT_NAME" = Some s -> env_AGENT_NAME env = JSString s.
Proof.
  intros H. unfold env_AGENT_NAME, get, process_env_object.
  by rewrite lookup_fmap, H.
Qed.

(** Whatever the environment, the value read for [AGENT_NAME] is [undefined]
    or a string, and [?? undefined] leaves it as it is. *)
Lemma agentName_value env :
  nullish (env_AGENT_NAME env) JSUndefined = env_AGENT_NAME env
  /\ (env_AGENT_NAME env = JSUndefined \/ exists s, env_AGENT_NAME env = JSString s).
Proof.
  destruct (env !! "AGENT_NAME") as [s|] eqn:E.
  - rewrite (env_AGENT_NAME_set _ _ E). split; [done | right; by exists s].
  - rewrite (env_AGENT_NAME_unset _ E). split; [done | by left].
Qed.

(** The fields of the literal that do not depend on its argument. *)
Lemma APP_CONFIG_literal_lookup v k :
  k <> "agentName" ->
  APP_CONFIG_literal v !! k = APP_CONFIG_literal JSUndefined !! k.
Proof.
  intros Hk. unfold APP_CONFIG_literal, object_literal. cbn [foldl fst snd].
  destruct (decide (k = "sandboxId")) as [->|Hs].
  - by rewrite !lookup_insert_eq.
  - rewrite !(lookup_insert_ne _ "sandboxId") by done.
    by rewrite !(lookup_insert_ne _ "agentName") by done.
Qed.

Lemma APP_CONFIG_literal_agentName v :
  APP_CONFIG_literal v !! "agentName" = Some (nullish v JSUndefined).
Proof.
  unfold APP_CONFIG_literal, object_literal. cbn [foldl fst snd].
  rewrite lookup_insert_ne by done. by rewrite lookup_insert_eq.
Qed.

(** The property names of the record are those of the literal, whatever the
    value of [agentName]. *)
Lemma APP_CONFIG_literal_dom v :
  dom (APP_CONFIG_literal v) = dom (APP_CONFIG_literal JSUndefined).
Proof.
  unfold APP_CONFIG_literal, object_literal. cbn [foldl fst snd].
  by rewrite !dom_insert_L.
Qed.

(** C1. With [AGENT_NAME] unset in the process environment, every field of
    [APP_CONFIG_DEFAULTS] holds its literal default; [agentName] and
    [sandboxId] are [undefined]; and the record has these fourteen fields
    only. *)
Theorem APP_CONFIG_DEFAULTS_no_override env :
  env !! "AGENT_NAME" = None ->
  let c := APP_CONFIG_DEFAULTS env in
  c !! "companyName" = Some (JSString "Trading Assistant")
  /\ c !! "pageTitle" = Some (JSString "AI Trading Assistant")
  /\ c !! "pageDescription" = Some (JSString "Your personal voice-powered portfolio analyst")
  /\ c !! "supportsChatInput" = Some (JSBool true)
  /\ c !! "supportsVideoInput" = Some (JSBool false)
  /\ c !! "supportsScreenShare" = Some (JSBool false)
  /\ c !! "isPreConnectBufferEnabled" = Some (JSBool true)
  /\ c !! "logo" = Some (JSString "/lk-logo.svg")
  /\ c !! "accent" = Some (JSString "#16a34a")
  /\ c !! "logoDark" = Some (JSString "/lk-logo-dark.svg")
  /\ c !! "accentDark" = Some (JSString "#4ade80")
  /\ c !! "startButtonText" = Some (JSString "Analyse my portfolio")
  /\ c !! "agentName" = Some JSUndefined
  /\ c !! "sandboxId" = Some JSUndefined
  /\ size c = 14.
Proof.
  intros H c. subst c. unfold APP_CONFIG_DEFAULTS.
  rewrite (env_AGENT_NAME_unset _ H).
  repeat split; vm_compute; reflexivity.
Qed.

(** C1 at the sample environment, where [AGENT_NAME] is unset. *)
Lemma APP_CONFIG_DEFAULTS_no_override_witness :
  sample_env !! "AGENT_NAME" = None
  /\ APP_CONFIG_DEFAULTS sample_env !! "startButtonText"
     = Some (JSString "Analyse my portfolio")
  /\ APP_CONFIG_DEFAULTS sample_env !! "agentName" = Some JSUndefined.
Proof.
  assert (H : sample_env !! "AGENT_NAME" = None) by (vm_compute; reflexivity).
  split; [exact H |].
  pose proof (APP_CONFIG_DEFAULTS_no_override sample_env H) as P. cbv zeta in P.
  split; [apply P | apply P].
Defined.

(** C8. With [AGENT_NAME] set to the empty string, [agentName] is the empty
    string and not [undefined]: [?? undefined] replaces [undefined] only and
    returns every string, the empty one included, as it is. *)
Theorem agentName_empty_string env :
  env !! "AGENT_NAME" = Some "" ->
  APP_CONFIG_DEFAULTS env !! "agentName" = Some (JSString "")
  /\ APP_CONFIG_DEFAULTS env !! "agentName" <> Some JSUndefined
  /\ nullish JSUndefined JSUndefined = JSUndefined
  /\ (forall s, nullish (JSString s) JSUndefined = JSString s).
Proof.
  intros H. unfold APP_CONFIG_DEFAULTS.
  rewrite APP_CONFIG_literal_agentName, (env_AGENT_NAME_set _ _ H).
  repeat split; done.
Qed.

(** C8 at an environment that sets [AGENT_NAME] to the empty string. *)
Lemma agentName_empty_string_witness :
  empty_name_env !! "AGENT_NAME" = Some ""
  /\ APP_CONFIG_DEFAULTS empty_name_env !! "agentName" = Some (JSString "").
Proof.
  assert (H : empty_name_env !! "AGENT_NAME" = Some "") by (vm_compute; reflexivity).
  split; [exact H | apply (agentName_empty_string empty_name_env H)].
Defined.

(** Every string that [AGENT_NAME] is set to reaches [agentName] unchanged,
    and [agentName] is [undefined] exactly when the variable is unset. *)
Lemma agentName_passthrough env s :
  env !! "AGENT_NAME" = Some s ->
  APP_CONFIG_DEFAULTS env !! "agentName" = Some (JSString s).
Proof.
  intros H. unfold APP_CONFIG_DEFAULTS.
  by rewrite APP_CONFIG_literal_agentName, (env_AGENT_NAME_set _ _ H).
Qed.

Lemma agentName_undefined_iff env :
  APP_CONFIG_DEFAULTS env !! "agentName" = Some JSUndefined
  <-> env !! "AGENT_NAME" = None.
Proof.
  unfold APP_CONFIG_DEFAULTS. rewrite APP_CONFIG_literal_agentName.
  destruct (env !! "AGENT_NAME") as [s|] eqn:E.
  - rewrite (env_AGENT_NAME_set _ _ E). cbn. split; intros; congruence.
  - rewrite (env_AGENT_NAME_unset _ E). cbn. split; intros; congruence.
Qed.

(** C9. The records built in two process environments agree on every field
    other than [agentName], [sandboxId] included, and have the same field
    names. *)
Theorem APP_CONFIG_DEFAULTS_env_independent env1 env2 k :
  k <> "agentName" ->
  APP_CONFIG_DEFAULTS env1 !! k = APP_CONFIG_DEFAULTS env2 !! k
  /\ dom (APP_CONFIG_DEFAULTS env1) = dom (APP_CONFIG_DEFAULTS env2).
Proof.
  intros Hk. unfold APP_CONFIG_DEFAULTS. split.
  - rewrite (APP_CONFIG_literal_lookup (env_AGENT_NAME env1)) by done.
    by rewrite (APP_CONFIG_literal_lookup (env_AGENT_NAME env2)) by done.
  - rewrite (APP_CONFIG_literal_dom (env_AGENT_NAME env1)).
    by rewrite (APP_CONFIG_literal_dom (env_AGENT_NAME env2)).
Qed.

(** C9 at two sample environments and the field [sandboxId]. *)
Lemma APP_CONFIG_DEFAULTS_env_independent_witness :
  "sandboxId" <> "agentName"
  /\ APP_CONFIG_DEFAULTS sample_env !! "sandboxId"
     = APP_CONFIG_DEFAULTS named_env !! "sandboxId".
Proof.
  assert (H : "sandboxId" <> "agentName") by discriminate.
  split; [exact H |].
  apply (APP_CONFIG_DEFAULTS_env_independent sample_env named_env "sandboxId" H).
Defined.

(** The two sample environments do differ in [agentName]. *)
Example agentName_depends_on_env :
  APP_CONFIG_DEFAULTS sample_env !! "agentName" = Some JSUndefined
  /\ APP_CONFIG_DEFAULTS named_env !! "agentName" = Some (JSString "portfolio-agent").
Proof. split; vm_compute; reflexivity. Qed.


End Config.

(** ** The welcome view *)

Section View.

Implicit Types p q : WelcomeViewProps.

Lemma append_empty_r (s : string) : s +:+ "" = s.
Proof.
  induction s as [| a s IH]; [done |].
  change (String a (s +:+ "") = String a s). by rewrite IH.
Qed.

(** C2. The view contains one [Button] element; its only child is the text
    [startButtonText], so the label it shows is that string. *)
Theorem button_label p :
  List.map children_of (elements_of (Comp CButton) (WelcomeView p))
  = [[Text (startButtonText p)]]
  /\ List.map textContent (elements_of (Comp CButton) (WelcomeView p))
     = [startButtonText p].
Proof.
  split; [reflexivity |].
  change ([startButtonText p +:+ ""] = [startButtonText p]).
  by rewrite append_empty_r.
Qed.

(** The same label is what the host [button] shows once [Button] is
    expanded. *)
Lemma rendered_button_label p :
  List.map textContent (elements_of (Host "button") (render (WelcomeView p)))
  = [startButtonText p].
Proof.
  change ([startButtonText p +:+ ""] = [startButtonText p]).
  by rewrite append_empty_r.
Qed.

(** A click on a node of the tree on screen appends the handlers that the
    dispatch runs, and changes nothing else. *)
Lemma step_click rt dom path hs :
  mounted rt = Some dom ->
  dispatch_click dom path = Some hs ->
  step rt (ClickAt path)
  = {| config := config rt; mounted := Some dom; calls := calls rt ++ hs |}.
Proof. intros Hm Hd. cbn. by rewrite Hm, Hd. Qed.

(** Repeated clicks on that node append them each time. *)
Lemma clicks_accumulate dom path hs n : forall rt,
  mounted rt = Some dom ->
  dispatch_click dom path = Some hs ->
  calls (run rt (replicate n (ClickAt path)))
  = calls rt ++ List.concat (replicate n hs).
Proof.
  induction n as [| n IH]; intros rt Hm Hd.
  - cbn. by rewrite app_nil_r.
  - change (run rt (replicate (S n) (ClickAt path)))
      with (run (step rt (ClickAt path)) (replicate n (ClickAt path))).
    rewrite (step_click rt dom path hs Hm Hd).
    rewrite IH by done. cbn. by rewrite <- app_assoc.
Qed.

Lemma concat_replicate_singleton {A} (x : A) n :
  List.concat (replicate n [x]) = replicate n x.
Proof. induction n as [| n IH]; cbn; [done | by rewrite IH]. Qed.

(** A click on the button of the rendered view runs [onStartCall] and
    nothing else. *)
Lemma button_click_dispatch p :
  dispatch_click (render (WelcomeView p)) button_path = Some [onStartCall p].
Proof. by destruct p as [label f [r |] rest]. Qed.

(** C3. The function passed as [onStartCall] is the only function attached
    anywhere in the view, as the [onClick] of the button, whatever other props
    the view is given; a click on the button runs it once and nothing else,
    and [n] clicks run it [n] times. *)
Theorem onStartCall_only_handler p rt n :
  event_handlers (WelcomeView p) = [(Comp CButton, "onClick", onStartCall p)]
  /\ event_handlers (render (WelcomeView p))
     = [(Host "button", "onClick", onStartCall p)]
  /\ dispatch_click (render (WelcomeView p)) button_path = Some [onStartCall p]
  /\ calls (step (step rt (RenderWelcome p)) (ClickAt button_path))
     = calls rt ++ [onStartCall p]
  /\ calls (run (step rt (RenderWelcome p)) (replicate n (ClickAt button_path)))
     = calls rt ++ replicate n (onStartCall p).
Proof.
  split; [by destruct p as [label f [r |] rest] |].
  split; [by destruct p as [label f [r |] rest] |].
  split; [apply button_click_dispatch |].
  split.
  - rewrite (step_click _ (render (WelcomeView p)) _ [onStartCall p]);
      [done | done | apply button_click_dispatch].
  - rewrite (clicks_accumulate (render (WelcomeView p)) _ [onStartCall p]);
      [| done | apply button_click_dispatch].
    by rewrite concat_replicate_singleton.
Qed.

(** C6. The view consists of the icon, the heading, the description, the
    button and the footer with the disclaimer, for all props; the icon is
    the [svg] drawing of thirteen shapes. *)
Theorem WelcomeView_parts p :
  outline (WelcomeView p)
  = [ Host "div"; Host "section"; Comp CWelcomeImage; Host "h1"; Host "p";
      Comp CButton; Host "div"; Host "p" ]
  /\ type_of WelcomeImage = Some (Host "svg")
  /\ length (children_of WelcomeImage) = 13
  /\ elements_of (Host "svg") (render (WelcomeView p)) = [WelcomeImage]
  /\ List.map textContent (elements_of (Host "h1") (WelcomeView p)) = [heading_text]
  /\ length (elements_of (Comp CButton) (WelcomeView p)) = 1
  /\ (exists cls,
        List.nth_error (children_of (WelcomeView p)) 1
        = Some (Elem (Host "div") cls
                  [ Elem (Host "p")
                      [ "className" =: "text-muted-foreground max-w-prose pt-1 text-xs leading-5 font-normal text-pretty md:text-sm" ]
                      [ Text disclaimer_text ] ])).
Proof.
  do 6 (split; [reflexivity |]).
  eexists. reflexivity.
Qed.

(** C10. Two renders with the same [startButtonText] give the same tree up
    to the [ref] and [onClick] props, and the same tree outright when those
    two agree as well; the heading, the description, the icon and the
    disclaimer are the same constants in every render. *)
Theorem WelcomeView_depends_on_label_only p q :
  startButtonText p = startButtonText q ->
  strip_identity (WelcomeView p) = strip_identity (WelcomeView q)
  /\ (onStartCall p = onStartCall q -> ref p = ref q -> WelcomeView p = WelcomeView q)
  /\ elements_of (Host "h1") (WelcomeView p)
     = [ Elem (Host "h1")
           [ "className" =: "text-foreground text-xl font-semibold tracking-tight" ]
           [ Text "AI Trading Assistant" ] ]
  /\ List.map textContent (elements_of (Host "p") (WelcomeView p))
     = [ description_text; disclaimer_text ]
  /\ elements_of (Comp CWelcomeImage) (WelcomeView p) = [ Elem (Comp CWelcomeImage) [] [] ]
  /\ elements_of (Host "svg") (render (WelcomeView p)) = [ WelcomeImage ].
Proof.
  intros Hs. split.
  - unfold WelcomeView. cbn [strip_identity List.map]. by rewrite Hs.
  - split; [| repeat split].
    intros Hf Hr. unfold WelcomeView. by rewrite Hs, Hf, Hr.
Qed.

(** C10 at two props objects with the same label and different callbacks,
    refs and remaining props. *)
Lemma WelcomeView_depends_on_label_only_witness :
  startButtonText sample_props = startButtonText other_props
  /\ strip_identity (WelcomeView sample_props) = strip_identity (WelcomeView other_props)
  /\ WelcomeView sample_props <> WelcomeView other_props.
Proof.
  assert (H : startButtonText sample_props = startButtonText other_props)
    by reflexivity.
  split; [exact H |].
  split; [apply (WelcomeView_depends_on_label_only sample_props other_props H) |].
  discriminate.
Defined.

(** The text nodes of a tree. *)
Lemma rendered_texts p :
  List.map textContent (elements_of (Host "h1") (render (WelcomeView p)))
  = [heading_text]
  /\ List.map textContent (elements_of (Host "p") (render (WelcomeView p)))
     = [description_text; disclaimer_text].
Proof. split; reflexivity. Qed.

(** C4, as stated, fails. On the page booted with the defaults, the record's
    [pageDescription] is not the text of any node of the rendered view, and
    the description paragraph shows another text; and a page whose record
    holds another [pageTitle] and [pageDescription] renders the very same
    tree, heading included. *)
Lemma WelcomeView_reads_config_counterexample :
  get (config booted) "pageDescription"
  = JSString "Your personal voice-powered portfolio analyst"
  /\ ~ In (get (config booted) "pageDescription")
          (List.map (fun e => JSString (textContent e))
             (subtrees (render (WelcomeView sample_props))))
  /\ get (config retitled) "pageTitle" <> get (config booted) "pageTitle"
  /\ get (config retitled) "pageDescription" <> get (config booted) "pageDescription"
  /\ mounted (step retitled (RenderWelcome sample_props))
     = mounted (step booted (RenderWelcome sample_props))
  /\ List.map textContent
       (elements_of (Host "h1") (render (WelcomeView sample_props)))
     = ["AI Trading Assistant"].
Proof.
  split; [vm_compute; reflexivity |].
  split.
  { intros H. vm_compute in H.
    repeat (destruct H as [H | H]; [discriminate H |]). exact H. }
  split; [vm_compute; discriminate |].
  split; [vm_compute; discriminate |].
  split; reflexivity.
Qed.

(** C4, amended. [WelcomeView] does not read the configuration record: what
    a render puts on screen is the same whatever record the page holds, and
    is given by the props; the heading and the description are literals of
    the component. In every environment the heading literal is equal to the
    record's [pageTitle], and the description literal is not equal to its
    [pageDescription]. *)
Theorem WelcomeView_independent_of_config rt rt' p env :
  mounted (step rt (RenderWelcome p)) = mounted (step rt' (RenderWelcome p))
  /\ mounted (step rt (RenderWelcome p)) = Some (render (WelcomeView p))
  /\ List.map textContent (elements_of (Host "h1") (render (WelcomeView p)))
     = [heading_text]
  /\ List.map textContent (elements_of (Host "p") (render (WelcomeView p)))
     = [description_text; disclaimer_text]
  /\ APP_CONFIG_DEFAULTS env !! "pageTitle" = Some (JSString heading_text)
  /\ APP_CONFIG_DEFAULTS env !! "pageDescription" <> Some (JSString description_text).
Proof.
  do 4 (split; [reflexivity |]).
  unfold APP_CONFIG_DEFAULTS.
  rewrite !(APP_CONFIG_literal_lookup (env_AGENT_NAME env)) by done.
  split; [vm_compute; reflexivity | vm_compute; discriminate].
Qed.

End View.

(** ** Further properties of the configuration record *)

Section ConfigMore.

Implicit Types env : gmap string string.

(** The value of [agentName], by cases on the environment. *)
Lemma agentName_lookup env :
  APP_CONFIG_DEFAULTS env !! "agentName"
  = Some (from_option JSString JSUndefined (env !! "AGENT_NAME")).
Proof.
  unfold APP_CONFIG_DEFAULTS. rewrite APP_CONFIG_literal_agentName.
  destruct (env !! "AGENT_NAME") as [s |] eqn:E.
  - by rewrite (env_AGENT_NAME_set _ _ E).
  - by rewrite (env_AGENT_NAME_unset _ E).
Qed.

(** X1. In every environment [agentName] is what [process.env.AGENT_NAME]
    reads as, the string when the variable is set and [undefined] when it is
    not: the [?? undefined] after it never changes the value. *)
Theorem agentName_mirrors_env env :
  APP_CONFIG_DEFAULTS env !! "agentName" = Some (env_AGENT_NAME env)
  /\ env_AGENT_NAME env = from_option JSString JSUndefined (env !! "AGENT_NAME")
  /\ nullish (env_AGENT_NAME env) JSUndefined = env_AGENT_NAME env.
Proof.
  destruct (agentName_value env) as [Hn _].
  split; [| split; [| exact Hn]].
  - unfold APP_CONFIG_DEFAULTS. by rewrite APP_CONFIG_literal_agentName, Hn.
  - destruct (env !! "AGENT_NAME") as [s |] eqn:E.
    + by rewrite (env_AGENT_NAME_set _ _ E).
    + by rewrite (env_AGENT_NAME_unset _ E).
Qed.

(** X2. Two environments give the same record exactly when they agree on
    [AGENT_NAME]: no other variable reaches the record, and every change of
    [AGENT_NAME] (set, unset, another string) shows in it. *)
Theorem APP_CONFIG_DEFAULTS_eq_iff env1 env2 :
  APP_CONFIG_DEFAULTS env1 = APP_CONFIG_DEFAULTS env2
  <-> env1 !! "AGENT_NAME" = env2 !! "AGENT_NAME".
Proof.
  split.
  - intros H. apply (f_equal (fun c => c !! "agentName")) in H.
    rewrite !agentName_lookup in H.
    destruct (env1 !! "AGENT_NAME"), (env2 !! "AGENT_NAME"); cbn in H; congruence.
  - intros H. unfold APP_CONFIG_DEFAULTS, env_AGENT_NAME, get, process_env_object.
    by rewrite !lookup_fmap, H.
Qed.

(** X8. In every environment the record has exactly the fields that the
    interface declares, each once: the optional ones ([accent], [logoDark],
    [accentDark], [agentName], [sandboxId]) are own properties of the record
    too, also when their value is [undefined]. *)
Theorem APP_CONFIG_DEFAULTS_fields env :
  dom (APP_CONFIG_DEFAULTS env) = list_to_set (fname <$> AppConfig)
  /\ NoDup (fname <$> AppConfig)
  /\ size (APP_CONFIG_DEFAULTS env) = length AppConfig
  /\ Forall (fun d => is_Some (APP_CONFIG_DEFAULTS env !! fname d)) AppConfig.
Proof.
  assert (Hdom : dom (APP_CONFIG_DEFAULTS env) = list_to_set (fname <$> AppConfig)).
  { unfold APP_CONFIG_DEFAULTS. rewrite APP_CONFIG_literal_dom.
    vm_compute. reflexivity. }
  assert (Hnd : NoDup (fname <$> AppConfig)).
  { apply (bool_decide_eq_true_1 _). vm_compute. reflexivity. }
  split; [exact Hdom |]. split; [exact Hnd |]. split.
  - rewrite <- size_dom, Hdom, size_list_to_set by exact Hnd.
    by rewrite length_fmap.
  - apply Forall_forall. intros d Hd. apply elem_of_dom. rewrite Hdom.
    apply elem_of_list_to_set, list_elem_of_fmap. by exists d.
Qed.

End ConfigMore.

(** ** Further properties of the welcome view *)

Section ViewMore.

Implicit Types p q : WelcomeViewProps.
Implicit Types e : Element.

(** Induction on element trees, with the hypothesis for every child. *)
Lemma Element_nested_ind (P : Element -> Prop) :
  (forall s, P (Text s)) ->
  (forall ty props children, Forall P children -> P (Elem ty props children)) ->
  forall e, P e.
Proof.
  intros HText HElem. fix IH 1. intros [s | ty props children].
  - apply HText.
  - apply HElem. induction children as [| c cs IHcs]; constructor.
    + apply IH.
    + exact IHcs.
Qed.

(** X3. The tree that [WelcomeView] returns determines, and is determined
    by, the label, the callback and the ref it was given: two calls return
    the same tree exactly when these three props agree, whatever the other
    props are. *)
Theorem WelcomeView_eq_iff p q :
  WelcomeView p = WelcomeView q
  <-> startButtonText p = startButtonText q
      /\ onStartCall p = onStartCall q
      /\ ref p = ref q.
Proof.
  split.
  - unfold WelcomeView. intros H. injection H as Hr Hf Hs.
    repeat split; [done | done |].
    destruct (ref p), (ref q); cbn in Hr; congruence.
  - intros (Hs & Hf & Hr). unfold WelcomeView. by rewrite Hs, Hf, Hr.
Qed.

Lemma outline_Elem ty props children :
  outline (Elem ty props children) = ty :: List.flat_map outline children.
Proof.
  unfold outline. cbn [subtrees omap list_omap type_of]. f_equal.
  induction children as [| c cs IH]; [done |].
  cbn [List.flat_map]. by rewrite omap_app, IH.
Qed.

Lemma forallb_flat_map_outline children :
  forallb (fun ty => match ty with Host _ => true | Comp _ => false end)
          (List.flat_map outline children)
  = forallb host_only children.
Proof.
  induction children as [| c cs IH]; [done |].
  cbn [List.flat_map forallb]. by rewrite forallb_app, IH.
Qed.

Lemma host_only_Host tag props children :
  host_only (Elem (Host tag) props children) = forallb host_only children.
Proof.
  unfold host_only at 1. rewrite outline_Elem. cbn [forallb].
  apply forallb_flat_map_outline.
Qed.

Lemma forallb_map_render children :
  Forall (fun c => host_only (render c) = true) children ->
  forallb host_only (List.map render children) = true.
Proof.
  induction 1 as [| c cs Hc _ IH]; [done |].
  cbn [List.map forallb]. by rewrite Hc, IH.
Qed.

Lemma map_render_idem children :
  Forall (fun c => render (render c) = render c) children ->
  List.map render (List.map render children) = List.map render children.
Proof.
  induction 1 as [| c cs Hc _ IH]; [done |].
  cbn [List.map]. by rewrite Hc, IH.
Qed.

(** X6. Expansion is complete and stable on every tree built from host
    elements, [WelcomeImage] and [Button]: the expanded tree holds no
    component element, and expanding it again changes nothing. *)
Theorem render_host_only_idempotent e :
  host_only (render e) = true /\ render (render e) = render e.
Proof.
  induction e as [s | ty props children IH] using Element_nested_ind.
  - by split.
  - assert (Hh : Forall (fun c => host_only (render c) = true) children)
      by (eapply Forall_impl; [exact IH | by intros c [H _]]).
    assert (Hi : Forall (fun c => render (render c) = render c) children)
      by (eapply Forall_impl; [exact IH | by intros c [_ H]]).
    destruct ty as [tag | [|]].
    + cbn [render]. split.
      * rewrite host_only_Host. by apply forallb_map_render.
      * by rewrite map_render_idem.
    + by split.
    + cbn [render]. unfold Button. split.
      * rewrite host_only_Host. by apply forallb_map_render.
      * cbn [render]. by rewrite map_render_idem.
Qed.

Lemma node_paths_Elem ty props children :
  node_paths (Elem ty props children) = [] :: child_paths 0 children.
Proof. reflexivity. Qed.

Lemma child_paths_lookup children : forall i k c rest,
  children !! k = Some c ->
  In rest (node_paths c) ->
  In ((i + k) :: rest) (child_paths i children).
Proof.
  induction children as [| c0 cs IH]; intros i k c rest Hk Hrest; [done |].
  cbn [child_paths]. apply in_or_app. destruct k as [| k].
  - left. cbn in Hk. injection Hk as ->.
    rewrite Nat.add_0_r. by apply in_map.
  - right. cbn in Hk. replace (i + S k) with (S i + k) by lia. by eapply IH.
Qed.

(** A click is dispatched only at the paths of the tree. *)
Lemma dispatch_click_path path : forall e hs,
  dispatch_click e path = Some hs -> In path (node_paths e).
Proof.
  induction path as [| i rest IH]; intros e hs H.
  - destruct e; by left.
  - cbn [dispatch_click] in H.
    destruct (children_of e !! i) as [c |] eqn:Hc; [| done].
    destruct (dispatch_click c rest) as [hs' |] eqn:Hd; [| done].
    destruct e as [s | ty props children]; [done |].
    rewrite node_paths_Elem. right.
    apply (child_paths_lookup children 0 i c rest Hc). by eapply IH.
Qed.

(** At every path of the rendered view, what a click runs. *)
Lemma rendered_view_clicks p :
  Forall (fun path =>
            dispatch_click (render (WelcomeView p)) path
            = Some (if hits_button path then [onStartCall p] else []))
         (node_paths (render (WelcomeView p))).
Proof.
  destruct p as [label f [r |] rest]; cbn [onStartCall].
  all: match goal with
       | |- Forall ?P (node_paths ?t) =>
           let l := eval vm_compute in (node_paths t) in
           change (Forall P l)
       end.
  all: repeat (constructor; [reflexivity |]); constructor.
Qed.

(** X5. A click anywhere in the rendered view runs [onStartCall] once when
    its target is the button or the label inside it, and runs nothing when
    its target is any other node (the icon and its shapes, the heading, the
    description, the footer). *)
Theorem click_runs_onStartCall_only_in_button p path hs :
  dispatch_click (render (WelcomeView p)) path = Some hs ->
  hs = if hits_button path then [onStartCall p] else [].
Proof.
  intros H. pose proof (dispatch_click_path _ _ _ H) as Hin.
  pose proof (proj1 (List.Forall_forall _ _) (rendered_view_clicks p) _ Hin) as Hc.
  cbv beta in Hc. rewrite H in Hc. by injection Hc.
Qed.

(** X5 at a click on the label text, and at a click on the heading. *)
Lemma click_runs_onStartCall_only_in_button_witness :
  dispatch_click (render (WelcomeView sample_props)) [0; 3; 0] = Some [Fn 1]
  /\ [Fn 1] = (if hits_button [0; 3; 0] then [onStartCall sample_props] else [])
  /\ dispatch_click (render (WelcomeView sample_props)) [0; 1] = Some [].
Proof.
  assert (H : dispatch_click (render (WelcomeView sample_props)) [0; 3; 0]
              = Some [Fn 1]) by reflexivity.
  split; [exact H |].
  split; [exact (click_runs_onStartCall_only_in_button sample_props [0; 3; 0] [Fn 1] H) |].
  reflexivity.
Defined.

Lemma run_app rt ops1 ops2 : run rt (ops1 ++ ops2) = run (run rt ops1) ops2.
Proof. unfold run. apply foldl_app. Qed.

Lemma button_clicks_after_render rt p n :
  calls (run (step rt (RenderWelcome p)) (replicate n (ClickAt button_path)))
  = calls rt ++ replicate n (onStartCall p).
Proof.
  rewrite (clicks_accumulate (render (WelcomeView p)) _ [onStartCall p]);
    [| done | apply button_click_dispatch].
  by rewrite concat_replicate_singleton.
Qed.

(** X4. Rendering the view again replaces the callback: after [m] clicks
    on the button of a view rendered with [p1], a render with [p2] and [n]
    more clicks, the callbacks run are [m] times that of [p1] and then [n]
    times that of [p2]; the earlier callback is not run again. *)
Theorem rerender_replaces_callback rt p1 p2 m n :
  calls (run rt (RenderWelcome p1 :: replicate m (ClickAt button_path)
                 ++ RenderWelcome p2 :: replicate n (ClickAt button_path)))
  = calls rt ++ replicate m (onStartCall p1) ++ replicate n (onStartCall p2).
Proof.
  change (run rt (RenderWelcome p1 :: ?l)) with (run (step rt (RenderWelcome p1)) l).
  rewrite run_app.
  change (run ?r (RenderWelcome p2 :: ?l)) with (run (step r (RenderWelcome p2)) l).
  rewrite button_clicks_after_render, button_clicks_after_render.
  by rewrite <- app_assoc.
Qed.

Lemma page_invariant_step seen rt op :
  page_invariant seen rt -> page_invariant (seen ++ [op]) (step rt op).
Proof.
  intros [Hcalls Hdom]. destruct op as [p | path].
  - split; cbn [step calls mounted].
    + intros f Hf. destruct (Hcalls f Hf) as (p' & Hp' & ->).
      exists p'. split; [apply elem_of_app; by left | done].
    + intros dom [= <-]. exists p.
      split; [apply elem_of_app; right; by apply list_elem_of_singleton | done].
  - assert (Hweak : page_invariant (seen ++ [ClickAt path]) rt).
    { split.
      - intros f Hf. destruct (Hcalls f Hf) as (p' & Hp' & ->).
        exists p'. split; [apply elem_of_app; by left | done].
      - intros dom Hm. destruct (Hdom dom Hm) as (p' & Hp' & ->).
        exists p'. split; [apply elem_of_app; by left | done]. }
    cbn [step]. destruct (mounted rt) as [dom |] eqn:Hm; [| exact Hweak].
    destruct (dispatch_click dom path) as [hs |] eqn:Hd; [| exact Hweak].
    destruct (Hdom dom eq_refl) as (p & Hp & ->).
    pose proof (dispatch_click_path _ _ _ Hd) as Hin.
    pose proof (proj1 (List.Forall_forall _ _) (rendered_view_clicks p) _ Hin) as Hc.
    cbv beta in Hc. rewrite Hd in Hc. injection Hc as ->.
    destruct Hweak as [Hcalls' Hdom']. split; cbn [calls mounted].
    + intros f Hf. apply elem_of_app in Hf as [Hf | Hf]; [by apply Hcalls' |].
      destruct (hits_button path).
      * apply list_elem_of_singleton in Hf as ->. exists p.
        split; [apply elem_of_app; by left | done].
      * by apply elem_of_nil in Hf.
    + rewrite <- Hm in *. exact Hdom'.
Qed.

Lemma page_invariant_run ops : forall seen rt,
  page_invariant seen rt -> page_invariant (seen ++ ops) (run rt ops).
Proof.
  induction ops as [| op ops IH]; intros seen rt Hinv.
  - by rewrite app_nil_r.
  - change (run rt (op :: ops)) with (run (step rt op) ops).
    replace (seen ++ op :: ops) with ((seen ++ [op]) ++ ops)
      by (by rewrite <- app_assoc).
    apply IH. by apply page_invariant_step.
Qed.

(** X7. Whatever is rendered and clicked, in whatever order, on a page
    booted in any environment, every function that a click runs is the
    [onStartCall] of props the view was rendered with: a click never runs a
    function passed under another prop, be it an [onClick] among the [div]
    props or a callback ref (which is run when the element is attached, not
    by a click). *)
Theorem clicks_run_only_onStartCall env ops f :
  f ∈ calls (run (boot env) ops) ->
  exists p, RenderWelcome p ∈ ops /\ f = onStartCall p.
Proof.
  intros Hf.
  assert (H0 : page_invariant [] (boot env)).
  { split; cbn; [intros g Hg; by apply elem_of_nil in Hg | done]. }
  destruct (page_invariant_run ops [] (boot env) H0) as [Hcalls _].
  exact (Hcalls f Hf).
Qed.

(** X7 at a page where the view, given a callback ref and an [onClick]
    among its [div] props, is rendered and its button clicked. *)
Lemma clicks_run_only_onStartCall_witness :
  calls (run (boot sample_env) [RenderWelcome callback_ref_props; ClickAt button_path])
  = [Fn 1]
  /\ Fn 1 ∈ calls (run (boot sample_env)
                     [RenderWelcome callback_ref_props; ClickAt button_path])
  /\ exists p, RenderWelcome p ∈ [RenderWelcome callback_ref_props; ClickAt button_path]
               /\ Fn 1 = onStartCall p.
Proof.
  assert (H : Fn 1 ∈ calls (run (boot sample_env)
                             [RenderWelcome callback_ref_props; ClickAt button_path]))
    by (apply list_elem_of_singleton; reflexivity).
  split; [reflexivity |]. split; [exact H |].
  exact (clicks_run_only_onStartCall sample_env _ (Fn 1) H).
Defined.

End ViewMore.

(** ** When evaluation throws *)

Section Failure.



End Failure.

(** ** Assignments to the configuration record *)

Section Mutation.

Implicit Types o : gmap string JSValue.
Implicit Types writes : Callback -> list (string * JSValue).








(** With callbacks that assign nothing, the page steps as [step] says. *)
Lemma step_effects_no_writes rt op :
  step_effects (fun _ => []) rt op = step rt op.
Proof.
  destruct op as [p | path]; [done |]. cbn.
  destruct (mounted rt) as [dom |]; [| done].
  destruct (dispatch_click dom path) as [hs |]; [| done].
  f_equal. unfold run_callbacks. generalize (config rt).
  induction hs as [| h hs IH]; intros c; [done | apply IH].
Qed.




End Mutation.
